(** * ol/events/condition: the map browser event conditions

    A shallow embedding of [src/ol/events/condition.js].  Every exported
    condition is a JavaScript function of one parameter, the map browser
    event, which JavaScript passes by reference: the callee could assign to
    the fields of the object, and it can throw.  The conditions are therefore
    embedded as computations in a state-and-exception monad whose state holds
    the event object bound to the parameter, the one ambient value the
    module reads, [document.activeElement], and the rest of what a script
    can reach. *)

From Stdlib Require Import Bool ZArith String List Lia.
Import ListNotations.

Local Open Scope string_scope.
Local Open Scope Z_scope.
Local Open Scope bool_scope.

(** ** The objects the conditions inspect *)

(** A DOM node, known by its identity. [None] stands for [null] where a
    node reference is expected. *)
Definition node := N.

Module Element.
(** The element an original event was dispatched to: its identity and its
    [tagName]. *)
Record t := mk { id : node; tagName : string }.
End Element.

Module PointerEvent.
(** The pointer event behind a map browser event: [pointerType] is the
    W3C device class ("mouse", "pen", "touch"). *)
Record t := mk { pointerType : string; isPrimary : bool; button : Z }.
End PointerEvent.

Module OriginalEvent.
(** The browser event.  [button] is [None] when the event has no such
    property (a keyboard event): reading it yields [undefined].  [target]
    is the element the event was dispatched to: only events that have one
    are covered, an event whose target is [null] is not. *)
Record t := mk {
  altKey : bool;
  ctrlKey : bool;
  metaKey : bool;
  shiftKey : bool;
  button : option Z;
  target : Element.t
}.
End OriginalEvent.

Module PluggableMap.
(** The map an event belongs to, reduced to the element it is rendered in
    ([null] when the map has no target). *)
Record t := mk { targetElement : option node }.
End PluggableMap.

Module MapBrowserEvent.
(** [pointerEvent] is [None] when the property is [undefined], that is when
    the map browser event does not originate from a pointer event.
    [target] is the map that dispatched the event, [None] ([null]) as long
    as the event has not been dispatched. *)
Record t := mk {
  type : string;
  originalEvent : OriginalEvent.t;
  pointerEvent : option PointerEvent.t;
  target : option PluggableMap.t
}.
End MapBrowserEvent.

(** The values of [../MapBrowserEventType.js] the module compares against.
    That file is not among the sources, so the three constants are taken as
    a parameter of the conditions that use them. *)
Record EventTypes := { CLICK : string; SINGLECLICK : string; DBLCLICK : string }.

(** ** JavaScript computations *)

Inductive exn :=
| AssertionError (code : Z)
| TypeError.

Inductive completion (A : Type) :=
| Normal (a : A)
| Throw (e : exn).
Arguments Normal {A} a.
Arguments Throw {A} e.

(** Whatever else of the page a script can reach besides its argument and
    the focused element (other globals, the clock, the rest of the
    document), as named values. *)
Definition Ambient : Type := list (string * Z).

(** What a call can read and could write: the object bound to the parameter,
    [document.activeElement], and the rest of the page. *)
Record Store := {
  event : MapBrowserEvent.t;
  activeElement : option node;
  ambient : Ambient
}.

Definition JS (A : Type) : Type := Store -> completion A * Store.

Definition ret {A} (a : A) : JS A := fun s => (Normal a, s).

Definition bind {A B} (m : JS A) (k : A -> JS B) : JS B :=
  fun s =>
    match m s with
    | (Normal a, s') => k a s'
    | (Throw e, s') => (Throw e, s')
    end.

Definition throw {A} (e : exn) : JS A := fun s => (Throw e, s).

(** Assignment to the store.  No condition uses it; it is what makes a write
    observable in the model. *)
Definition modify (f : Store -> Store) : JS unit := fun s => (Normal tt, f s).

Declare Scope js_scope.
Delimit Scope js_scope with js.
Notation "x <- m ;; k" := (bind m (fun x => k))
  (at level 100, m at next level, right associativity) : js_scope.
Notation "m ;; k" := (bind m (fun _ => k))
  (at level 100, right associativity) : js_scope.
Local Open Scope js_scope.

(** [mapBrowserEvent f] reads property [f] of the parameter. *)
Definition mapBrowserEvent {A} (f : MapBrowserEvent.t -> A) : JS A :=
  fun s => (Normal (f (event s)), s).

(** [document.activeElement]. *)
Definition document_activeElement : JS (option node) :=
  fun s => (Normal (activeElement s), s).

(** [o.f] where [o] may be [undefined]: reading a property of [undefined]
    throws a TypeError. *)
Definition member {A B} (o : option A) (f : A -> B) : JS B :=
  match o with
  | Some x => ret (f x)
  | None => throw TypeError
  end.

(** [o.method()] where [o] may be [null]: calling a method of [null] throws
    a TypeError. *)
Definition invoke {A B} (o : option A) (method : A -> JS B) : JS B :=
  match o with
  | Some x => method x
  | None => throw TypeError
  end.

(** Truthiness of an object reference or [undefined]. *)
Definition truthy {A} (o : option A) : bool :=
  match o with Some _ => true | None => false end.

(** [x == n] for a number or [undefined] on the left and a number on the
    right: [undefined] equals no number. *)
Definition loose_eq_number (x : option Z) (n : Z) : bool :=
  match x with Some k => Z.eqb k n | None => false end.

(** [a === b] on node references, [null] included. *)
Definition strict_eq_node (a b : option node) : bool :=
  match a, b with
  | Some x, Some y => N.eqb x y
  | None, None => true
  | _, _ => false
  end.

(** What a call returned or threw, and the store it left. *)
Definition result {A} (r : completion A * Store) : completion A := fst r.
Definition store_after {A} (r : completion A * Store) : Store := snd r.

(** ** The helpers imported from the rest of the library *)

(** Modelled from the spec: [assert] of [../asserts.js], which is not among
    the sources.  The spec has [mouseOnly] fail on an event without pointer
    info and calls this a defensive assertion: [assert(assertion, errorCode)]
    throws the assertion error of the given code when [assertion] is falsy
    and does nothing otherwise. *)
Definition assert (assertion : bool) (errorCode : Z) : JS unit :=
  if assertion then ret tt else throw (AssertionError errorCode).

(** Modelled from the spec: [TRUE] and [FALSE] of [../functions.js], which
    is not among the sources.  The spec has [always] be constant true and
    [never] constant false. *)
Definition TRUE : JS bool := ret true.
Definition FALSE : JS bool := ret false.

(** Modelled from the spec: the map's [getTargetElement()], which is not
    among the sources.  The spec takes the interaction's nominal target
    element as a plain lookup. *)
Definition getTargetElement (map : PluggableMap.t) : JS (option node) :=
  ret (PluggableMap.targetElement map).

(** ** The conditions *)

Definition condition : Type := JS bool.

Section Conditions.

(** [MapBrowserEventType] of [../MapBrowserEventType.js] and the platform
    flags [WEBKIT] and [MAC] of [../has.js]. *)
Variable MapBrowserEventType : EventTypes.
Variables WEBKIT MAC : bool.

Definition altKeyOnly : condition :=
  originalEvent <- mapBrowserEvent MapBrowserEvent.originalEvent ;;
  ret (OriginalEvent.altKey originalEvent &&
       negb (OriginalEvent.metaKey originalEvent || OriginalEvent.ctrlKey originalEvent) &&
       negb (OriginalEvent.shiftKey originalEvent)).

Definition altShiftKeysOnly : condition :=
  originalEvent <- mapBrowserEvent MapBrowserEvent.originalEvent ;;
  ret (OriginalEvent.altKey originalEvent &&
       negb (OriginalEvent.metaKey originalEvent || OriginalEvent.ctrlKey originalEvent) &&
       OriginalEvent.shiftKey originalEvent).

Definition focus : condition :=
  map <- mapBrowserEvent MapBrowserEvent.target ;;
  targetElement <- invoke map getTargetElement ;;
  active <- document_activeElement ;;
  ret (strict_eq_node targetElement active).

Definition always : condition := TRUE.

Definition click : condition :=
  type <- mapBrowserEvent MapBrowserEvent.type ;;
  ret (String.eqb type (CLICK MapBrowserEventType)).

Definition mouseActionButton : condition :=
  originalEvent <- mapBrowserEvent MapBrowserEvent.originalEvent ;;
  ret (loose_eq_number (OriginalEvent.button originalEvent) 0 &&
       negb (WEBKIT && MAC && OriginalEvent.ctrlKey originalEvent)).

Definition never : condition := FALSE.

Definition pointerMove : condition :=
  type <- mapBrowserEvent MapBrowserEvent.type ;;
  ret (String.eqb type "pointermove").

Definition singleClick : condition :=
  type <- mapBrowserEvent MapBrowserEvent.type ;;
  ret (String.eqb type (SINGLECLICK MapBrowserEventType)).

Definition doubleClick : condition :=
  type <- mapBrowserEvent MapBrowserEvent.type ;;
  ret (String.eqb type (DBLCLICK MapBrowserEventType)).

Definition noModifierKeys : condition :=
  originalEvent <- mapBrowserEvent MapBrowserEvent.originalEvent ;;
  ret (negb (OriginalEvent.altKey originalEvent) &&
       negb (OriginalEvent.metaKey originalEvent || OriginalEvent.ctrlKey originalEvent) &&
       negb (OriginalEvent.shiftKey originalEvent)).

Definition platformModifierKeyOnly : condition :=
  originalEvent <- mapBrowserEvent MapBrowserEvent.originalEvent ;;
  ret (negb (OriginalEvent.altKey originalEvent) &&
       (if MAC then OriginalEvent.metaKey originalEvent
        else OriginalEvent.ctrlKey originalEvent) &&
       negb (OriginalEvent.shiftKey originalEvent)).

Definition shiftKeyOnly : condition :=
  originalEvent <- mapBrowserEvent MapBrowserEvent.originalEvent ;;
  ret (negb (OriginalEvent.altKey originalEvent) &&
       negb (OriginalEvent.metaKey originalEvent || OriginalEvent.ctrlKey originalEvent) &&
       OriginalEvent.shiftKey originalEvent).

Definition targetNotEditable : condition :=
  originalEvent <- mapBrowserEvent MapBrowserEvent.originalEvent ;;
  let target := OriginalEvent.target originalEvent in
  let tagName := Element.tagName target in
  ret (negb (String.eqb tagName "INPUT") &&
       negb (String.eqb tagName "SELECT") &&
       negb (String.eqb tagName "TEXTAREA")).

Definition mouseOnly : condition :=
  pointerEvent <- mapBrowserEvent MapBrowserEvent.pointerEvent ;;
  assert (truthy pointerEvent) 56 ;;
  pointerEvent <- mapBrowserEvent MapBrowserEvent.pointerEvent ;;
  pointerType <- member pointerEvent PointerEvent.pointerType ;;
  ret (String.eqb pointerType "mouse").

Definition primaryAction : condition :=
  pointerEvent <- mapBrowserEvent MapBrowserEvent.pointerEvent ;;
  isPrimary <- member pointerEvent PointerEvent.isPrimary ;;
  if isPrimary
  then button <- member pointerEvent PointerEvent.button ;;
       ret (Z.eqb button 0)
  else ret isPrimary.

(** Every export of the module, in the order of the source. *)
Definition conditions : list condition :=
  [ altKeyOnly; altShiftKeysOnly; focus; always; click; mouseActionButton;
    never; pointerMove; singleClick; doubleClick; noModifierKeys;
    platformModifierKeyOnly; shiftKeyOnly; targetNotEditable; mouseOnly;
    primaryAction ].

End Conditions.

(** ** Vocabulary of the statements *)

(** A computation that leaves every store as it found it. *)
Definition readonly {A} (m : JS A) : Prop := forall s, store_after (m s) = s.

(** Two stores with the same inputs of a call: the same event and the same
    focused element, whatever the rest of the page holds. *)
Definition same_inputs (s1 s2 : Store) : Prop :=
  event s1 = event s2 /\ activeElement s1 = activeElement s2.

(** A computation whose completion is determined by the inputs. *)
Definition input_determined {A} (m : JS A) : Prop :=
  forall s1 s2, same_inputs s1 s2 -> result (m s1) = result (m s2).

(** A script that looks at the rest of the page.  No condition does; it is
    what a completion that depends on more than the inputs looks like. *)
Definition ambient_is_empty : JS bool :=
  fun s => (Normal (match ambient s with [] => true | _ :: _ => false end), s).

(** A call that ended by throwing. *)
Definition throws {A} (r : completion A) : Prop :=
  match r with Throw _ => True | Normal _ => False end.

(** How many of the listed conditions came out true. *)
Definition count_true (l : list bool) : nat := List.length (List.filter (fun b => b) l).

(** The same call on an event that differs in one field only. *)
Definition update_originalEvent (f : OriginalEvent.t -> OriginalEvent.t) (s : Store) : Store :=
  let e := event s in
  {| event := MapBrowserEvent.mk (MapBrowserEvent.type e)
                (f (MapBrowserEvent.originalEvent e))
                (MapBrowserEvent.pointerEvent e) (MapBrowserEvent.target e);
     activeElement := activeElement s;
     ambient := ambient s |}.

Definition with_metaKey (b : bool) : Store -> Store :=
  update_originalEvent (fun o =>
    OriginalEvent.mk (OriginalEvent.altKey o) (OriginalEvent.ctrlKey o) b
      (OriginalEvent.shiftKey o) (OriginalEvent.button o) (OriginalEvent.target o)).

Definition with_ctrlKey (b : bool) : Store -> Store :=
  update_originalEvent (fun o =>
    OriginalEvent.mk (OriginalEvent.altKey o) b (OriginalEvent.metaKey o)
      (OriginalEvent.shiftKey o) (OriginalEvent.button o) (OriginalEvent.target o)).

Definition with_tagName (tag : string) : Store -> Store :=
  update_originalEvent (fun o =>
    OriginalEvent.mk (OriginalEvent.altKey o) (OriginalEvent.ctrlKey o)
      (OriginalEvent.metaKey o) (OriginalEvent.shiftKey o) (OriginalEvent.button o)
      (Element.mk (Element.id (OriginalEvent.target o)) tag)).

Definition with_altKey (b : bool) : Store -> Store :=
  update_originalEvent (fun o =>
    OriginalEvent.mk b (OriginalEvent.ctrlKey o) (OriginalEvent.metaKey o)
      (OriginalEvent.shiftKey o) (OriginalEvent.button o) (OriginalEvent.target o)).

Definition with_shiftKey (b : bool) : Store -> Store :=
  update_originalEvent (fun o =>
    OriginalEvent.mk (OriginalEvent.altKey o) (OriginalEvent.ctrlKey o)
      (OriginalEvent.metaKey o) b (OriginalEvent.button o) (OriginalEvent.target o)).

(** The same event with the ctrl and meta flags exchanged. *)
Definition swap_ctrl_meta : Store -> Store :=
  update_originalEvent (fun o =>
    OriginalEvent.mk (OriginalEvent.altKey o) (OriginalEvent.metaKey o)
      (OriginalEvent.ctrlKey o) (OriginalEvent.shiftKey o) (OriginalEvent.button o)
      (OriginalEvent.target o)).

(** ** Concrete events *)

(** An instance of the event-type constants for concrete runs: the names the
    doc comments of [click], [singleClick] and [doubleClick] give to the
    three event types. *)
Definition ol_event_types : EventTypes :=
  {| CLICK := "click"; SINGLECLICK := "singleclick"; DBLCLICK := "dblclick" |}.

Definition viewport : Element.t := Element.mk 1%N "DIV".

Definition no_modifiers (button : option Z) : OriginalEvent.t :=
  OriginalEvent.mk false false false false button viewport.

Definition a_map : PluggableMap.t := PluggableMap.mk (Some 1%N).

(** A plain click, with no pointer event behind it and no modifier held. *)
Definition click_event : Store :=
  {| event := MapBrowserEvent.mk "click" (no_modifiers (Some 0)) None (Some a_map);
     activeElement := None;
     ambient := [] |}.

(** A key press forwarded by the map: no pointer event and no button. *)
Definition keydown_event : Store :=
  {| event := MapBrowserEvent.mk "keydown" (no_modifiers None) None (Some a_map);
     activeElement := Some 1%N;
     ambient := [] |}.

(** A finger moving over the map. *)
Definition touch_move_event : Store :=
  {| event := MapBrowserEvent.mk "pointermove" (no_modifiers (Some 0))
                (Some (PointerEvent.mk "touch" true 0)) (Some a_map);
     activeElement := None;
     ambient := [] |}.

(** * Properties *)

(** ** Runs of the scenarios the specification lists *)

Example scenario_click :
  result (click ol_event_types click_event) = Normal true /\
  result (noModifierKeys click_event) = Normal true /\
  result (singleClick ol_event_types click_event) = Normal false.
Proof. repeat split. Qed.

Example scenario_touch_move :
  result (pointerMove touch_move_event) = Normal true /\
  result (mouseOnly touch_move_event) = Normal false /\
  result (primaryAction touch_move_event) = Normal true.
Proof. repeat split. Qed.

Example scenario_keydown :
  result (mouseOnly keydown_event) = Throw (AssertionError 56) /\
  result (primaryAction keydown_event) = Throw TypeError /\
  result (mouseActionButton true true keydown_event) = Normal false /\
  result (focus keydown_event) = Normal true.
Proof. repeat split. Qed.

(** ** The monad's operations and the store *)

Lemma readonly_ret {A} (a : A) : readonly (ret a).
Proof. intros s. reflexivity. Qed.

Lemma readonly_throw {A} (e : exn) : readonly (@throw A e).
Proof. intros s. reflexivity. Qed.

Lemma readonly_bind {A B} (m : JS A) (k : A -> JS B) :
  readonly m -> (forall a, readonly (k a)) -> readonly (bind m k).
Proof.
  intros Hm Hk s. unfold bind, store_after.
  specialize (Hm s). unfold store_after in Hm.
  destruct (m s) as [[a | e] s']; simpl in Hm; subst s'.
  - apply Hk.
  - reflexivity.
Qed.

Lemma readonly_mapBrowserEvent {A} (f : MapBrowserEvent.t -> A) :
  readonly (mapBrowserEvent f).
Proof. intros s. reflexivity. Qed.

Lemma readonly_document_activeElement : readonly document_activeElement.
Proof. intros s. reflexivity. Qed.

Lemma readonly_member {A B} (o : option A) (f : A -> B) : readonly (member o f).
Proof. destruct o; [apply readonly_ret | apply readonly_throw]. Qed.

Lemma readonly_assert (assertion : bool) (errorCode : Z) :
  readonly (assert assertion errorCode).
Proof. destruct assertion; [apply readonly_ret | apply readonly_throw]. Qed.

Lemma readonly_getTargetElement (map : PluggableMap.t) :
  readonly (getTargetElement map).
Proof. apply readonly_ret. Qed.

Lemma readonly_invoke {A B} (o : option A) (method : A -> JS B) :
  (forall x, readonly (method x)) -> readonly (invoke o method).
Proof. intros H. destruct o; [apply H | apply readonly_throw]. Qed.

(** A write is seen: [readonly] does not hold of every computation. *)
Lemma modify_not_readonly :
  ~ readonly (modify (fun s =>
      {| event := event s; activeElement := None; ambient := ambient s |})).
Proof.
  intros H. specialize (H keydown_event). discriminate H.
Qed.

Create HintDb readonly.
#[local] Hint Resolve readonly_ret readonly_throw readonly_mapBrowserEvent
  readonly_document_activeElement readonly_member readonly_assert
  readonly_getTargetElement : readonly.

(** Walks a condition's body statement by statement. *)
Ltac readonly_body :=
  repeat first
    [ apply readonly_bind; [ | intros ? ]
    | apply readonly_invoke; intros ?
    | progress cbv zeta
    | match goal with |- readonly (if ?b then _ else _) => destruct b end
    | solve [ auto with readonly ] ].

(** ** What each condition computes

    One equation per condition: the completion of the call and the store it
    leaves, read off the body. *)

Section Runs.
Variable T : EventTypes.
Variables WEBKIT MAC : bool.
Variable s : Store.

Let originalEvent := MapBrowserEvent.originalEvent (event s).
Let alt := OriginalEvent.altKey originalEvent.
Let ctrl := OriginalEvent.ctrlKey originalEvent.
Let meta := OriginalEvent.metaKey originalEvent.
Let shift := OriginalEvent.shiftKey originalEvent.

Lemma altKeyOnly_run :
  altKeyOnly s = (Normal (alt && negb (meta || ctrl) && negb shift), s).
Proof. reflexivity. Qed.

Lemma altShiftKeysOnly_run :
  altShiftKeysOnly s = (Normal (alt && negb (meta || ctrl) && shift), s).
Proof. reflexivity. Qed.

Lemma shiftKeyOnly_run :
  shiftKeyOnly s = (Normal (negb alt && negb (meta || ctrl) && shift), s).
Proof. reflexivity. Qed.

Lemma noModifierKeys_run :
  noModifierKeys s = (Normal (negb alt && negb (meta || ctrl) && negb shift), s).
Proof. reflexivity. Qed.

Lemma platformModifierKeyOnly_run :
  platformModifierKeyOnly MAC s =
  (Normal (negb alt && (if MAC then meta else ctrl) && negb shift), s).
Proof. reflexivity. Qed.

Lemma mouseActionButton_run :
  mouseActionButton WEBKIT MAC s =
  (Normal (loose_eq_number (OriginalEvent.button originalEvent) 0 &&
           negb (WEBKIT && MAC && ctrl)), s).
Proof. reflexivity. Qed.

Lemma targetNotEditable_run :
  let tagName := Element.tagName (OriginalEvent.target originalEvent) in
  targetNotEditable s =
  (Normal (negb (String.eqb tagName "INPUT") && negb (String.eqb tagName "SELECT") &&
           negb (String.eqb tagName "TEXTAREA")), s).
Proof. reflexivity. Qed.

Lemma click_run :
  click T s = (Normal (String.eqb (MapBrowserEvent.type (event s)) (CLICK T)), s).
Proof. reflexivity. Qed.

Lemma singleClick_run :
  singleClick T s =
  (Normal (String.eqb (MapBrowserEvent.type (event s)) (SINGLECLICK T)), s).
Proof. reflexivity. Qed.

Lemma doubleClick_run :
  doubleClick T s =
  (Normal (String.eqb (MapBrowserEvent.type (event s)) (DBLCLICK T)), s).
Proof. reflexivity. Qed.

Lemma pointerMove_run :
  pointerMove s =
  (Normal (String.eqb (MapBrowserEvent.type (event s)) "pointermove"), s).
Proof. reflexivity. Qed.

Lemma mouseOnly_run :
  mouseOnly s =
  match MapBrowserEvent.pointerEvent (event s) with
  | Some p => (Normal (String.eqb (PointerEvent.pointerType p) "mouse"), s)
  | None => (Throw (AssertionError 56), s)
  end.
Proof.
  unfold mouseOnly, bind, mapBrowserEvent.
  destruct (MapBrowserEvent.pointerEvent (event s)) as [p | ] eqn:Hp; simpl.
  - rewrite Hp. reflexivity.
  - reflexivity.
Qed.

Lemma primaryAction_run :
  primaryAction s =
  match MapBrowserEvent.pointerEvent (event s) with
  | Some p => (Normal (PointerEvent.isPrimary p && Z.eqb (PointerEvent.button p) 0), s)
  | None => (Throw TypeError, s)
  end.
Proof.
  unfold primaryAction, bind, mapBrowserEvent.
  destruct (MapBrowserEvent.pointerEvent (event s)) as [p | ]; simpl.
  - destruct (PointerEvent.isPrimary p); reflexivity.
  - reflexivity.
Qed.

End Runs.

(** A list of four pairwise distinct strings, spelled out. *)
Lemma NoDup_four (a b c d : string) :
  NoDup [a; b; c; d] ->
  a <> b /\ a <> c /\ a <> d /\ b <> c /\ b <> d /\ c <> d.
Proof.
  intros H.
  inversion H as [ | ? ? Ha Hbcd ]; subst.
  inversion Hbcd as [ | ? ? Hb Hcd ]; subst.
  inversion Hcd as [ | ? ? Hc _ ]; subst.
  simpl in Ha, Hb, Hc. intuition congruence.
Qed.

(** The updates used to vary one field change that field and keep the
    others. *)
Lemma with_metaKey_spec (b : bool) (s : Store) :
  let o := MapBrowserEvent.originalEvent (event s) in
  let o' := MapBrowserEvent.originalEvent (event (with_metaKey b s)) in
  OriginalEvent.metaKey o' = b /\
  OriginalEvent.altKey o' = OriginalEvent.altKey o /\
  OriginalEvent.ctrlKey o' = OriginalEvent.ctrlKey o /\
  OriginalEvent.shiftKey o' = OriginalEvent.shiftKey o.
Proof. repeat split. Qed.

Lemma with_ctrlKey_spec (b : bool) (s : Store) :
  let o := MapBrowserEvent.originalEvent (event s) in
  let o' := MapBrowserEvent.originalEvent (event (with_ctrlKey b s)) in
  OriginalEvent.ctrlKey o' = b /\
  OriginalEvent.altKey o' = OriginalEvent.altKey o /\
  OriginalEvent.metaKey o' = OriginalEvent.metaKey o /\
  OriginalEvent.shiftKey o' = OriginalEvent.shiftKey o.
Proof. repeat split. Qed.

Lemma with_tagName_spec (tag : string) (s : Store) :
  Element.tagName
    (OriginalEvent.target (MapBrowserEvent.originalEvent (event (with_tagName tag s))))
  = tag.
Proof. reflexivity. Qed.

(** ** Pointer conditions *)

(** C1 (as amended): on an event that carries pointer info, [primaryAction]
    returns a boolean that is true exactly when the pointer is the primary
    one and its button is 0.  On an event without pointer info the call does
    not return false: reading [isPrimary] of the absent pointer event throws
    a TypeError. *)
Theorem primaryAction_needs_pointer_info (s : Store) :
  match MapBrowserEvent.pointerEvent (event s) with
  | Some p =>
      exists b : bool,
        result (primaryAction s) = Normal b /\
        (b = true <-> PointerEvent.isPrimary p = true /\ PointerEvent.button p = 0)
  | None => result (primaryAction s) = Throw TypeError
  end.
Proof.
  rewrite primaryAction_run.
  destruct (MapBrowserEvent.pointerEvent (event s)) as [p | ]; simpl.
  - eexists. split; [reflexivity | ].
    rewrite andb_true_iff, Z.eqb_eq. tauto.
  - reflexivity.
Qed.

(** C1 as the specification states it fails on a key press forwarded by the
    map: the event has no pointer info, and the call throws instead of
    returning false. *)
Lemma primaryAction_throws_without_pointer_info :
  MapBrowserEvent.pointerEvent (event keydown_event) = None /\
  result (primaryAction keydown_event) = Throw TypeError /\
  result (primaryAction keydown_event) <> Normal false.
Proof.
  split; [reflexivity | ].
  split; [reflexivity | ].
  rewrite primaryAction_run. simpl. discriminate.
Qed.

(** C2: [mouseOnly] throws exactly when the event lacks pointer info, and
    what it throws is then the assertion error of code 56 (the
    specification's PreconditionError); with pointer info present it returns
    a boolean that is true exactly when the pointer type is "mouse". *)
Theorem mouseOnly_asserts_pointer_info (s : Store) :
  (throws (result (mouseOnly s)) <-> MapBrowserEvent.pointerEvent (event s) = None) /\
  match MapBrowserEvent.pointerEvent (event s) with
  | None => result (mouseOnly s) = Throw (AssertionError 56)
  | Some p =>
      exists b : bool,
        result (mouseOnly s) = Normal b /\
        (b = true <-> PointerEvent.pointerType p = "mouse")
  end.
Proof.
  rewrite mouseOnly_run.
  destruct (MapBrowserEvent.pointerEvent (event s)) as [p | ]; simpl.
  - split.
    + split; [contradiction | discriminate].
    + eexists. split; [reflexivity | apply String.eqb_eq].
  - split; [ | reflexivity].
    split; trivial.
Qed.

(** ** Modifier keys *)

(** C3: on every event, and so for every combination of the four modifier
    flags, the conditions [altKeyOnly], [altShiftKeysOnly], [shiftKeyOnly]
    and [noModifierKeys] all return, exactly one of the five cases "the
    first is true", ..., "the fourth is true", "none is true" holds, and no
    two of the four are true together. *)
Theorem modifier_conditions_partition (s : Store) :
  exists a b c d : bool,
    result (altKeyOnly s) = Normal a /\
    result (altShiftKeysOnly s) = Normal b /\
    result (shiftKeyOnly s) = Normal c /\
    result (noModifierKeys s) = Normal d /\
    count_true [a; b; c; d; negb (a || b || c || d)] = 1%nat /\
    a && b = false /\ a && c = false /\ a && d = false /\
    b && c = false /\ b && d = false /\ c && d = false.
Proof.
  rewrite altKeyOnly_run, altShiftKeysOnly_run, shiftKeyOnly_run, noModifierKeys_run.
  do 4 eexists.
  do 4 (split; [reflexivity | ]).
  destruct (OriginalEvent.altKey (MapBrowserEvent.originalEvent (event s))),
           (OriginalEvent.metaKey (MapBrowserEvent.originalEvent (event s))),
           (OriginalEvent.ctrlKey (MapBrowserEvent.originalEvent (event s))),
           (OriginalEvent.shiftKey (MapBrowserEvent.originalEvent (event s)));
    repeat split.
Qed.

(** C4: [platformModifierKeyOnly] returns a boolean that is true exactly
    when alt and shift are unset and the platform's modifier is set (meta
    when [MAC], ctrl otherwise); off the Mac the completion is the same
    whatever [metaKey] is changed to, and on the Mac whatever [ctrlKey] is
    changed to. *)
Theorem platformModifierKeyOnly_spec (MAC : bool) (s : Store) :
  let o := MapBrowserEvent.originalEvent (event s) in
  (exists b : bool,
     result (platformModifierKeyOnly MAC s) = Normal b /\
     (b = true <->
      OriginalEvent.altKey o = false /\ OriginalEvent.shiftKey o = false /\
      (if MAC then OriginalEvent.metaKey o else OriginalEvent.ctrlKey o) = true)) /\
  (forall meta : bool,
     result (platformModifierKeyOnly false (with_metaKey meta s)) =
     result (platformModifierKeyOnly false s)) /\
  (forall ctrl : bool,
     result (platformModifierKeyOnly true (with_ctrlKey ctrl s)) =
     result (platformModifierKeyOnly true s)).
Proof.
  intros o. split; [ | split].
  - rewrite platformModifierKeyOnly_run. eexists. split; [reflexivity | ].
    fold o. rewrite !andb_true_iff, !negb_true_iff. tauto.
  - intros meta. rewrite !platformModifierKeyOnly_run. reflexivity.
  - intros ctrl. rewrite !platformModifierKeyOnly_run. reflexivity.
Qed.

(** ** Mouse button *)

(** C5: whatever the platform flags, [mouseActionButton] returns a boolean
    that is true exactly when the button is 0 and it is not the case that
    [WEBKIT], [MAC] and ctrl all hold; with a button other than 0 (or none)
    it returns false. *)
Theorem mouseActionButton_spec (WEBKIT MAC : bool) (s : Store) :
  let o := MapBrowserEvent.originalEvent (event s) in
  exists b : bool,
    result (mouseActionButton WEBKIT MAC s) = Normal b /\
    (b = true <->
     OriginalEvent.button o = Some 0 /\
     ~ (WEBKIT = true /\ MAC = true /\ OriginalEvent.ctrlKey o = true)) /\
    (OriginalEvent.button o <> Some 0 -> b = false).
Proof.
  intros o. rewrite mouseActionButton_run. eexists.
  split; [reflexivity | ]. fold o.
  assert (Hb : loose_eq_number (OriginalEvent.button o) 0 = true <->
               OriginalEvent.button o = Some 0).
  { destruct (OriginalEvent.button o) as [k | ]; simpl.
    - rewrite Z.eqb_eq. split; congruence.
    - split; discriminate. }
  split.
  - rewrite andb_true_iff, negb_true_iff, Hb, <- not_true_iff_false, !andb_true_iff.
    tauto.
  - intros Hne. apply andb_false_intro1. apply not_true_iff_false.
    rewrite Hb. exact Hne.
Qed.

(** ** Event target *)

(** C6: [targetNotEditable] returns a boolean that is false exactly when the
    tag name is one of the strings "INPUT", "SELECT", "TEXTAREA", hence true
    for every other string; in particular it is true for the empty string
    and for the lower-case "input", "select" and "textarea". *)
Theorem targetNotEditable_spec (s : Store) :
  let tagName :=
    Element.tagName (OriginalEvent.target (MapBrowserEvent.originalEvent (event s))) in
  (exists b : bool,
     result (targetNotEditable s) = Normal b /\
     (b = false <-> tagName = "INPUT" \/ tagName = "SELECT" \/ tagName = "TEXTAREA")) /\
  result (targetNotEditable (with_tagName "" s)) = Normal true /\
  result (targetNotEditable (with_tagName "input" s)) = Normal true /\
  result (targetNotEditable (with_tagName "select" s)) = Normal true /\
  result (targetNotEditable (with_tagName "textarea" s)) = Normal true.
Proof.
  intros tagName. split; [ | repeat split].
  rewrite targetNotEditable_run. eexists. split; [reflexivity | ].
  fold tagName.
  rewrite !andb_false_iff, !negb_false_iff, !String.eqb_eq. tauto.
Qed.

(** ** Constant conditions *)

(** C7: on every event [always] returns true and [never] returns false;
    neither throws. *)
Theorem always_true_never_false (s : Store) :
  result (always s) = Normal true /\ result (never s) = Normal false.
Proof.
  unfold always, never, TRUE, FALSE, ret, result. simpl. split; reflexivity.
Qed.

(** ** Event type *)

(** C8: each of [click], [singleClick], [doubleClick] and [pointerMove]
    returns a boolean that is true exactly when the event's type is the
    constant the condition stands for, and so false for every other type. *)
Theorem type_conditions_spec (T : EventTypes) (s : Store) :
  let type := MapBrowserEvent.type (event s) in
  (exists b : bool, result (click T s) = Normal b /\ (b = true <-> type = CLICK T)) /\
  (exists b : bool,
     result (singleClick T s) = Normal b /\ (b = true <-> type = SINGLECLICK T)) /\
  (exists b : bool,
     result (doubleClick T s) = Normal b /\ (b = true <-> type = DBLCLICK T)) /\
  (exists b : bool,
     result (pointerMove s) = Normal b /\ (b = true <-> type = "pointermove")).
Proof.
  intros type.
  rewrite click_run, singleClick_run, doubleClick_run, pointerMove_run.
  repeat split; eexists; (split; [reflexivity | apply String.eqb_eq]).
Qed.

(** C10: when the type constants are pairwise distinct, at most one of
    [click], [singleClick], [doubleClick] and [pointerMove] returns true on
    any one event. *)
Theorem type_conditions_exclusive (T : EventTypes) (s : Store) :
  NoDup [CLICK T; SINGLECLICK T; DBLCLICK T; "pointermove"] ->
  exists a b c d : bool,
    result (click T s) = Normal a /\
    result (singleClick T s) = Normal b /\
    result (doubleClick T s) = Normal c /\
    result (pointerMove s) = Normal d /\
    (count_true [a; b; c; d] <= 1)%nat.
Proof.
  intros Hdistinct.
  apply NoDup_four in Hdistinct.
  destruct Hdistinct as (Hab & Hac & Had & Hbc & Hbd & Hcd).
  rewrite click_run, singleClick_run, doubleClick_run, pointerMove_run.
  do 4 eexists. do 4 (split; [reflexivity | ]).
  destruct (String.eqb_spec (MapBrowserEvent.type (event s)) (CLICK T)) as [Ea | _];
    destruct (String.eqb_spec (MapBrowserEvent.type (event s)) (SINGLECLICK T)) as [Eb | _];
    destruct (String.eqb_spec (MapBrowserEvent.type (event s)) (DBLCLICK T)) as [Ec | _];
    destruct (String.eqb_spec (MapBrowserEvent.type (event s)) "pointermove") as [Ed | _];
    unfold count_true; simpl; try lia; exfalso; congruence.
Qed.

(** The library's own names are pairwise distinct, and on a plain click the
    four type conditions then have at most one true among them. *)
Lemma type_conditions_exclusive_on_click :
  NoDup [CLICK ol_event_types; SINGLECLICK ol_event_types; DBLCLICK ol_event_types;
         "pointermove"] /\
  exists a b c d : bool,
    result (click ol_event_types click_event) = Normal a /\
    result (singleClick ol_event_types click_event) = Normal b /\
    result (doubleClick ol_event_types click_event) = Normal c /\
    result (pointerMove click_event) = Normal d /\
    (count_true [a; b; c; d] <= 1)%nat.
Proof.
  assert (Hdistinct : NoDup [CLICK ol_event_types; SINGLECLICK ol_event_types;
                             DBLCLICK ol_event_types; "pointermove"]).
  { simpl. repeat constructor; simpl; intuition discriminate. }
  split; [exact Hdistinct | ].
  exact (type_conditions_exclusive ol_event_types click_event Hdistinct).
Defined.

(** ** Purity *)

Section Purity.
Variable T : EventTypes.
Variables WEBKIT MAC : bool.

Lemma conditions_readonly : Forall readonly (conditions T WEBKIT MAC).
Proof.
  unfold conditions.
  repeat (apply Forall_cons; [ | ]); try apply Forall_nil.
  all: unfold altKeyOnly, altShiftKeysOnly, focus, always, click,
         mouseActionButton, never, pointerMove, singleClick, doubleClick,
         noModifierKeys, platformModifierKeyOnly, shiftKeyOnly,
         targetNotEditable, mouseOnly, primaryAction, TRUE, FALSE.
  all: readonly_body.
Qed.

(** The operations of the monad and the inputs. *)

Lemma input_determined_ret {A} (a : A) : input_determined (ret a).
Proof. intros s1 s2 _. reflexivity. Qed.

Lemma input_determined_throw {A} (e : exn) : input_determined (@throw A e).
Proof. intros s1 s2 _. reflexivity. Qed.

Lemma input_determined_bind {A B} (m : JS A) (k : A -> JS B) :
  readonly m -> input_determined m -> (forall a, input_determined (k a)) ->
  input_determined (bind m k).
Proof.
  intros Hro Hm Hk s1 s2 Hsame.
  pose proof (Hm s1 s2 Hsame) as Hres.
  pose proof (Hro s1) as H1. pose proof (Hro s2) as H2.
  unfold bind, result, store_after in *.
  destruct (m s1) as [r1 s1'], (m s2) as [r2 s2']. simpl in *. subst.
  destruct r2 as [a | e]; [apply Hk; exact Hsame | reflexivity].
Qed.

Lemma input_determined_mapBrowserEvent {A} (f : MapBrowserEvent.t -> A) :
  input_determined (mapBrowserEvent f).
Proof.
  intros s1 s2 [Hevent _]. unfold mapBrowserEvent, result. simpl.
  rewrite Hevent. reflexivity.
Qed.

Lemma input_determined_document_activeElement :
  input_determined document_activeElement.
Proof.
  intros s1 s2 [_ Hactive]. unfold document_activeElement, result. simpl.
  rewrite Hactive. reflexivity.
Qed.

Lemma input_determined_member {A B} (o : option A) (f : A -> B) :
  input_determined (member o f).
Proof. destruct o; [apply input_determined_ret | apply input_determined_throw]. Qed.

Lemma input_determined_assert (assertion : bool) (errorCode : Z) :
  input_determined (assert assertion errorCode).
Proof.
  destruct assertion; [apply input_determined_ret | apply input_determined_throw].
Qed.

Lemma input_determined_getTargetElement (map : PluggableMap.t) :
  input_determined (getTargetElement map).
Proof. apply input_determined_ret. Qed.

Lemma input_determined_invoke {A B} (o : option A) (method : A -> JS B) :
  (forall x, input_determined (method x)) -> input_determined (invoke o method).
Proof. intros H. destruct o; [apply H | apply input_determined_throw]. Qed.

(** A completion can depend on more than the inputs: [input_determined]
    does not hold of every computation. *)
Lemma ambient_is_empty_not_input_determined : ~ input_determined ambient_is_empty.
Proof.
  intros H.
  assert (Hsame : same_inputs keydown_event
                    {| event := event keydown_event;
                       activeElement := activeElement keydown_event;
                       ambient := [("scrollY", 3)] |})
    by (split; reflexivity).
  apply H in Hsame. discriminate Hsame.
Qed.

Lemma conditions_input_determined :
  Forall input_determined (conditions T WEBKIT MAC).
Proof.
  unfold conditions.
  repeat (apply Forall_cons; [ | ]); try apply Forall_nil.
  all: unfold altKeyOnly, altShiftKeysOnly, focus, always, click,
         mouseActionButton, never, pointerMove, singleClick, doubleClick,
         noModifierKeys, platformModifierKeyOnly, shiftKeyOnly,
         targetNotEditable, mouseOnly, primaryAction, TRUE, FALSE.
  all: repeat first
         [ apply input_determined_bind; [ solve [readonly_body] | | intros ? ]
         | apply input_determined_invoke; intros ?
         | progress cbv zeta
         | match goal with
           | |- input_determined (if ?b then _ else _) => destruct b
           end
         | apply input_determined_ret
         | apply input_determined_throw
         | apply input_determined_mapBrowserEvent
         | apply input_determined_document_activeElement
         | apply input_determined_member
         | apply input_determined_assert
         | apply input_determined_getTargetElement ].
Qed.

End Purity.

(** C9: each of the sixteen conditions the module exports, under any
    platform flags and event-type constants, leaves the event (and the
    focused element, and the rest of the page) as it found them, and two
    calls on equal events with equal focus state end in the same
    completion, whatever else differs between the two calls. *)
Theorem conditions_pure (T : EventTypes) (WEBKIT MAC : bool) :
  List.length (conditions T WEBKIT MAC) = 16%nat /\
  Forall (fun c : condition =>
            (forall s, event (store_after (c s)) = event s) /\
            (forall s, store_after (c s) = s) /\
            (forall s1 s2,
               event s1 = event s2 -> activeElement s1 = activeElement s2 ->
               result (c s1) = result (c s2)))
         (conditions T WEBKIT MAC).
Proof.
  split; [reflexivity | ].
  pose proof (conditions_readonly T WEBKIT MAC) as Hreadonly.
  pose proof (conditions_input_determined T WEBKIT MAC) as Hdetermined.
  rewrite Forall_forall in *.
  intros c Hc. split; [ | split].
  - intros s. rewrite (Hreadonly c Hc s). reflexivity.
  - exact (Hreadonly c Hc).
  - intros s1 s2 Hevent Hactive.
    apply (Hdetermined c Hc). split; assumption.
Qed.

(** * Further properties of the conditions *)

Lemma with_altKey_spec (b : bool) (s : Store) :
  let o := MapBrowserEvent.originalEvent (event s) in
  let o' := MapBrowserEvent.originalEvent (event (with_altKey b s)) in
  OriginalEvent.altKey o' = b /\
  OriginalEvent.ctrlKey o' = OriginalEvent.ctrlKey o /\
  OriginalEvent.metaKey o' = OriginalEvent.metaKey o /\
  OriginalEvent.shiftKey o' = OriginalEvent.shiftKey o.
Proof. repeat split. Qed.

Lemma with_shiftKey_spec (b : bool) (s : Store) :
  let o := MapBrowserEvent.originalEvent (event s) in
  let o' := MapBrowserEvent.originalEvent (event (with_shiftKey b s)) in
  OriginalEvent.shiftKey o' = b /\
  OriginalEvent.altKey o' = OriginalEvent.altKey o /\
  OriginalEvent.ctrlKey o' = OriginalEvent.ctrlKey o /\
  OriginalEvent.metaKey o' = OriginalEvent.metaKey o.
Proof. repeat split. Qed.

Lemma swap_ctrl_meta_spec (s : Store) :
  let o := MapBrowserEvent.originalEvent (event s) in
  let o' := MapBrowserEvent.originalEvent (event (swap_ctrl_meta s)) in
  OriginalEvent.ctrlKey o' = OriginalEvent.metaKey o /\
  OriginalEvent.metaKey o' = OriginalEvent.ctrlKey o /\
  OriginalEvent.altKey o' = OriginalEvent.altKey o /\
  OriginalEvent.shiftKey o' = OriginalEvent.shiftKey o.
Proof. repeat split. Qed.



(** ** Focus *)


(** ** Modifier keys, continued *)

(** Whatever the platform, [platformModifierKeyOnly] is never true together
    with [altKeyOnly], [altShiftKeysOnly], [shiftKeyOnly] or
    [noModifierKeys]. *)
Theorem platformModifierKeyOnly_excludes_the_others (MAC : bool) (s : Store) :
  exists p a b c d : bool,
    result (platformModifierKeyOnly MAC s) = Normal p /\
    result (altKeyOnly s) = Normal a /\
    result (altShiftKeysOnly s) = Normal b /\
    result (shiftKeyOnly s) = Normal c /\
    result (noModifierKeys s) = Normal d /\
    p && (a || b || c || d) = false.
Proof.
  rewrite platformModifierKeyOnly_run, altKeyOnly_run, altShiftKeysOnly_run,
    shiftKeyOnly_run, noModifierKeys_run.
  do 5 eexists. do 5 (split; [reflexivity | ]).
  destruct MAC,
    (OriginalEvent.altKey (MapBrowserEvent.originalEvent (event s))),
    (OriginalEvent.metaKey (MapBrowserEvent.originalEvent (event s))),
    (OriginalEvent.ctrlKey (MapBrowserEvent.originalEvent (event s))),
    (OriginalEvent.shiftKey (MapBrowserEvent.originalEvent (event s)));
    reflexivity.
Qed.

(** The four conditions [altKeyOnly], [altShiftKeysOnly], [shiftKeyOnly]
    and [noModifierKeys] are all false exactly when ctrl or meta is held:
    either key, on any platform, switches all four off, and nothing else
    does. *)
Theorem ctrl_or_meta_switches_off_alt_shift_conditions (s : Store) :
  let o := MapBrowserEvent.originalEvent (event s) in
  exists a b c d : bool,
    result (altKeyOnly s) = Normal a /\
    result (altShiftKeysOnly s) = Normal b /\
    result (shiftKeyOnly s) = Normal c /\
    result (noModifierKeys s) = Normal d /\
    (a || b || c || d = false <->
     OriginalEvent.ctrlKey o = true \/ OriginalEvent.metaKey o = true).
Proof.
  intros o.
  rewrite altKeyOnly_run, altShiftKeysOnly_run, shiftKeyOnly_run, noModifierKeys_run.
  do 4 eexists. do 4 (split; [reflexivity | ]).
  fold o.
  destruct (OriginalEvent.altKey o), (OriginalEvent.metaKey o),
    (OriginalEvent.ctrlKey o), (OriginalEvent.shiftKey o); simpl;
    split; intros H; auto; try discriminate H; destruct H; discriminate.
Qed.

(** Exchanging the ctrl and meta flags of an event changes none of
    [altKeyOnly], [altShiftKeysOnly], [shiftKeyOnly], [noModifierKeys], and
    [platformModifierKeyOnly] on a Mac is [platformModifierKeyOnly] off the
    Mac on the exchanged event. *)
Theorem ctrl_meta_exchange (MAC : bool) (s : Store) :
  result (altKeyOnly (swap_ctrl_meta s)) = result (altKeyOnly s) /\
  result (altShiftKeysOnly (swap_ctrl_meta s)) = result (altShiftKeysOnly s) /\
  result (shiftKeyOnly (swap_ctrl_meta s)) = result (shiftKeyOnly s) /\
  result (noModifierKeys (swap_ctrl_meta s)) = result (noModifierKeys s) /\
  result (platformModifierKeyOnly MAC (swap_ctrl_meta s)) =
  result (platformModifierKeyOnly (negb MAC) s).
Proof.
  rewrite !altKeyOnly_run, !altShiftKeysOnly_run, !shiftKeyOnly_run,
    !noModifierKeys_run, !platformModifierKeyOnly_run.
  simpl.
  rewrite (orb_comm (OriginalEvent.ctrlKey (MapBrowserEvent.originalEvent (event s)))).
  repeat split. destruct MAC; reflexivity.
Qed.

(** The examples of the doc comments: with the shift key held as well,
    [altKeyOnly], [noModifierKeys] and [platformModifierKeyOnly] are false;
    with the alt key held as well, [shiftKeyOnly], [noModifierKeys] and
    [platformModifierKeyOnly] are false; with ctrl or meta held as well,
    [altKeyOnly], [altShiftKeysOnly], [shiftKeyOnly] and [noModifierKeys]
    are false. *)
Theorem additional_key_defeats_only (MAC : bool) (s : Store) :
  Forall (fun c : condition => result (c (with_shiftKey true s)) = Normal false)
    [altKeyOnly; noModifierKeys; platformModifierKeyOnly MAC] /\
  Forall (fun c : condition => result (c (with_altKey true s)) = Normal false)
    [shiftKeyOnly; noModifierKeys; platformModifierKeyOnly MAC] /\
  Forall (fun c : condition =>
            result (c (with_ctrlKey true s)) = Normal false /\
            result (c (with_metaKey true s)) = Normal false)
    [altKeyOnly; altShiftKeysOnly; shiftKeyOnly; noModifierKeys].
Proof.
  split; [ | split]; repeat apply Forall_cons; try apply Forall_nil;
    try split;
    rewrite ?altKeyOnly_run, ?altShiftKeysOnly_run, ?shiftKeyOnly_run,
      ?noModifierKeys_run, ?platformModifierKeyOnly_run;
    simpl; rewrite ?orb_true_r, ?andb_false_r; reflexivity.
Qed.

(** ** Mouse button, continued *)

(** Unless the platform is both WebKit and Mac, [mouseActionButton] does
    not look at the ctrl key: changing it changes nothing. *)
Theorem mouseActionButton_ignores_ctrl (WEBKIT MAC ctrl : bool) (s : Store) :
  WEBKIT && MAC = false ->
  result (mouseActionButton WEBKIT MAC (with_ctrlKey ctrl s)) =
  result (mouseActionButton WEBKIT MAC s).
Proof.
  intros Hplatform. rewrite !mouseActionButton_run. simpl.
  rewrite Hplatform. reflexivity.
Qed.

(** On WebKit off the Mac, a ctrl-click with button 0 is an action like the
    plain click. *)
Lemma mouseActionButton_ignores_ctrl_on_click :
  true && false = false /\
  result (mouseActionButton true false (with_ctrlKey true click_event)) =
  result (mouseActionButton true false click_event).
Proof.
  split; [reflexivity | ].
  exact (mouseActionButton_ignores_ctrl true false true click_event eq_refl).
Defined.

(** WebKit on a Mac is the strictest platform: a click with the ctrl key
    held is never an action there, and whatever is an action there is an
    action under every other setting of the platform flags. *)
Theorem mouseActionButton_webkit_mac_strictest (WEBKIT MAC : bool) (s : Store) :
  result (mouseActionButton true true (with_ctrlKey true s)) = Normal false /\
  exists here there : bool,
    result (mouseActionButton true true s) = Normal here /\
    result (mouseActionButton WEBKIT MAC s) = Normal there /\
    implb here there = true.
Proof.
  split.
  - rewrite mouseActionButton_run. simpl. rewrite andb_false_r. reflexivity.
  - rewrite !mouseActionButton_run. do 2 eexists.
    do 2 (split; [reflexivity | ]).
    destruct (loose_eq_number _ 0), WEBKIT, MAC,
      (OriginalEvent.ctrlKey (MapBrowserEvent.originalEvent (event s)));
      reflexivity.
Qed.

(** ** Failures *)

